(** * License server: a shallow embedding of [license_server.py]

    The server keeps one SQLite table [licenses], keyed by the PASETO token
    text, and exposes three handlers over it: [validate_license],
    [admin_create_license] and [admin_update_license].  The embedding keeps
    the shape of the Python code: handlers are computations over a world
    (database file, clock, entropy) that either return or raise, a
    connection works on a private copy of the table until [commit], and
    timestamps travel through the table as the ISO text that the sqlite3
    adapter writes.

    Three libraries are used by the source but are not part of it:
    [pyseto] (token encryption), [datetime.fromisoformat] (whose accepted
    grammar depends on the interpreter version) and the C library behind
    [strftime].  They are the fields of the class [Libs]; what the handlers
    rely on from them is stated in [LibsOk].  [reference_libs] is an
    executable realisation used to run the handlers on concrete requests.

    The listing handler and the HTML page only read the table and are left
    out. *)

From Stdlib Require Import ZArith Lia Ascii String.
From stdpp Require Import base option list strings gmap fin_maps sorting.

Local Open Scope string_scope.
Local Open Scope Z_scope.

(* ===================================================================== *)
(** * Part I: definitions *)
(* ===================================================================== *)

(** ** Exceptions and results *)

Inductive exn : Type :=
  | ValueError (msg : string)
  | TypeError (msg : string)
  | OverflowError (msg : string)
  | IntegrityError (msg : string)
  | OperationalError (msg : string)
  | HTTPException (status_code : Z) (detail : string).

(** [str(e)] *)
Definition exn_str (e : exn) : string :=
  match e with
  | ValueError m | TypeError m | OverflowError m
  | IntegrityError m | OperationalError m => m
  | HTTPException _ d => d
  end.

Inductive result (A : Type) : Type :=
  | Ok (a : A)
  | Raise (e : exn).
Arguments Ok {A} a.
Arguments Raise {A} e.

(** ** [datetime] and [timedelta]

    A [datetime] is a point of the proleptic Gregorian wall clock, counted
    in microseconds from 0001-01-01T00:00:00, with the UTC offset of its
    [tzinfo] when it has one ([None]: a naive datetime, as [utcnow]
    returns).  A [timedelta] is a number of microseconds. *)

Module Datetime.

Definition US_PER_SECOND : Z := 1000000.
Definition US_PER_DAY : Z := 86400000000.
Definition MAXORDINAL : Z := 3652059.            (* date(9999, 12, 31).toordinal() *)
Definition MAX_WALL : Z := MAXORDINAL * US_PER_DAY.
Definition MAX_DELTA_DAYS : Z := 999999999.

Record datetime : Type := mk_datetime {
  wall : Z;
  utcoffset : option Z
}.

Definition naive (t : Z) : datetime := mk_datetime t None.

(** [timedelta(days=n)] *)
Definition timedelta_days (n : Z) : result Z :=
  if (Z.abs n <=? MAX_DELTA_DAYS)
  then Ok (n * US_PER_DAY)
  else Raise (OverflowError "days out of range for timedelta").

(** [d + delta]: the tzinfo is kept, the result must stay within
    [datetime.min .. datetime.max]. *)
Definition add (d : datetime) (delta : Z) : result datetime :=
  let t := wall d + delta in
  if (0 <=? t) && (t <? MAX_WALL)
  then Ok (mk_datetime t (utcoffset d))
  else Raise (OverflowError "date value out of range").

(** [a > b]: two naive datetimes compare on the wall clock, two aware ones
    on the UTC instant, and a naive one against an aware one raises. *)
Definition gt (a b : datetime) : result bool :=
  match utcoffset a, utcoffset b with
  | None, None => Ok (wall b <? wall a)
  | Some oa, Some ob => Ok (wall b - ob <? wall a - oa)
  | _, _ => Raise (TypeError "can't compare offset-naive and offset-aware datetimes")
  end.

(** [a - b], a timedelta *)
Definition sub (a b : datetime) : result Z :=
  match utcoffset a, utcoffset b with
  | None, None => Ok (wall a - wall b)
  | Some oa, Some ob => Ok ((wall a - oa) - (wall b - ob))
  | _, _ => Raise (TypeError "can't subtract offset-naive and offset-aware datetimes")
  end.

(** [delta.days]: timedeltas are normalised with [0 <= seconds < 86400],
    so the day count is the floor. *)
Definition timedelta_get_days (delta : Z) : Z := delta / US_PER_DAY.

(** *** The calendar *)

Definition is_leap (y : Z) : bool :=
  (y mod 4 =? 0) && (negb (y mod 100 =? 0) || (y mod 400 =? 0)).

Definition days_before_year (y : Z) : Z :=
  let y := y - 1 in y * 365 + y / 4 - y / 100 + y / 400.

Definition days_in_month (leap : bool) (m : Z) : Z :=
  match m with
  | 1 => 31 | 2 => if leap then 29 else 28 | 3 => 31 | 4 => 30
  | 5 => 31 | 6 => 30 | 7 => 31 | 8 => 31
  | 9 => 30 | 10 => 31 | 11 => 30 | 12 => 31
  | _ => 0
  end.

Definition days_before_month (leap : bool) (m : Z) : Z :=
  match m with
  | 1 => 0 | 2 => 31 | 3 => 59 | 4 => 90
  | 5 => 120 | 6 => 151 | 7 => 181 | 8 => 212
  | 9 => 243 | 10 => 273 | 11 => 304 | 12 => 334
  | _ => 0
  end + (if (2 <? m) && leap then 1 else 0).

Definition ymd2ord (y m d : Z) : Z :=
  days_before_year y + days_before_month (is_leap y) m + d.

(** Month and day of the [n]-th day (from 0) of a year. *)
Definition month_day (leap : bool) (n : Z) : Z * Z :=
  let month := Z.shiftr (n + 50) 5 in
  let preceding := days_before_month leap month in
  if n <? preceding
  then (month - 1, n - (preceding - days_in_month leap (month - 1)) + 1)
  else (month, n - preceding + 1).

Definition DI400Y : Z := 146097.
Definition DI100Y : Z := 36524.
Definition DI4Y : Z := 1461.

Definition ord2ymd (n : Z) : Z * Z * Z :=
  let n := n - 1 in
  let n400 := n / DI400Y in
  let n := n mod DI400Y in
  let n100 := n / DI100Y in
  let n := n mod DI100Y in
  let n4 := n / DI4Y in
  let n := n mod DI4Y in
  let n1 := n / 365 in
  let n := n mod 365 in
  let year := n400 * 400 + 1 + n100 * 100 + n4 * 4 + n1 in
  if (n1 =? 4) || (n100 =? 4) then (year - 1, 12, 31)
  else
    let leapyear := (n1 =? 3) && (negb (n4 =? 24) || (n100 =? 3)) in
    let '(month, day) := month_day leapyear n in
    (year, month, day).

(** *** Formatting *)

Definition digit (n : Z) : ascii := ascii_of_N (48 + Z.to_N (n mod 10)).

(** ["%0<width>d" % n], for [0 <= n < 10 ^ width] *)
Fixpoint fmt (width : nat) (n : Z) : string :=
  match width with
  | O => ""
  | S w => fmt w (n / 10) +:+ String (digit n) ""
  end.

Definition format_date (t : Z) : string :=
  let '(y, m, d) := ord2ymd (t / US_PER_DAY + 1) in
  fmt 4 y +:+ "-" +:+ fmt 2 m +:+ "-" +:+ fmt 2 d.

Definition format_time (t : Z) : string :=
  let s := (t mod US_PER_DAY) / US_PER_SECOND in
  let us := t mod US_PER_SECOND in
  fmt 2 (s / 3600) +:+ ":" +:+ fmt 2 (s / 60 mod 60) +:+ ":" +:+ fmt 2 (s mod 60)
  +:+ (if us =? 0 then "" else "." +:+ fmt 6 us).

Definition format_offset (off : option Z) : string :=
  match off with
  | None => ""
  | Some o =>
      let a := Z.abs o in
      let s := a / US_PER_SECOND in
      let us := a mod US_PER_SECOND in
      (if o <? 0 then "-" else "+") +:+ fmt 2 (s / 3600) +:+ ":" +:+ fmt 2 (s / 60 mod 60)
      +:+ (if (s mod 60 =? 0) && (us =? 0) then ""
           else ":" +:+ fmt 2 (s mod 60) +:+ (if us =? 0 then "" else "." +:+ fmt 6 us))
  end.

(** [d.isoformat(sep)] *)
Definition isoformat (sep : ascii) (d : datetime) : string :=
  format_date (wall d) +:+ String sep (format_time (wall d)) +:+ format_offset (utcoffset d).

End Datetime.

Import Datetime.

(** ** The [licenses] table

    [[
    CREATE TABLE IF NOT EXISTS licenses (
        id INTEGER PRIMARY KEY AUTOINCREMENT,
        key TEXT UNIQUE NOT NULL,
        username TEXT NOT NULL,
        plan TEXT NOT NULL,
        created_at TIMESTAMP DEFAULT CURRENT_TIMESTAMP,
        expires_at TIMESTAMP NOT NULL,
        active BOOLEAN DEFAULT 1,
        last_check TIMESTAMP
    )
    ]]

    The rows are indexed by the [key] column, which is unique.  Timestamps
    are held as the text SQLite stores for them. *)

Module Row.
Record t : Type := mk {
  id : Z;
  username : string;
  plan : string;
  created_at : string;
  expires_at : string;
  active : bool;
  last_check : option string
}.
End Row.

Record table : Type := mk_table {
  rows : gmap string Row.t;
  autoincrement : Z                       (* sqlite_sequence: the largest id handed out *)
}.

(** The table [init_db] creates in a fresh database file. *)
Definition init_db : table := mk_table ∅ 0.

(** The sqlite3 default adapter for [datetime] parameters: [val.isoformat(" ")]. *)
Definition adapt_datetime (d : datetime) : string := isoformat " " d.

(** [CURRENT_TIMESTAMP], read at wall-clock time [t]: ["YYYY-MM-DD HH:MM:SS"]. *)
Definition current_timestamp (t : Z) : string :=
  isoformat " " (naive (t - t mod US_PER_SECOND)).

(** [INSERT INTO licenses (key, username, plan, expires_at, last_check)
    VALUES (?, ?, ?, ?, ?)]; [admin_create_license] leaves [last_check]
    out, which stores NULL.  [username] and [plan] are NOT NULL, [key] is
    UNIQUE; [created_at] and [active] take their defaults. *)
Definition sql_insert (conn : table) (created : string) (key : string)
    (username plan : option string) (expires_at : string)
    (last_check : option string) : result table :=
  match username, plan with
  | None, _ => Raise (IntegrityError "NOT NULL constraint failed: licenses.username")
  | Some _, None => Raise (IntegrityError "NOT NULL constraint failed: licenses.plan")
  | Some u, Some p =>
      match rows conn !! key with
      | Some _ => Raise (IntegrityError "UNIQUE constraint failed: licenses.key")
      | None =>
          let id := autoincrement conn + 1 in
          Ok (mk_table
                (<[key := Row.mk id u p created expires_at true last_check]> (rows conn))
                id)
      end
  end.

(** [SELECT active, expires_at FROM licenses WHERE key = ?], [fetchone()] *)
Definition sql_select_active_expires (conn : table) (key : string) : option (bool * string) :=
  (λ r, (Row.active r, Row.expires_at r)) <$> rows conn !! key.

(** [SELECT expires_at FROM licenses WHERE key = ?], [fetchone()] *)
Definition sql_select_expires (conn : table) (key : string) : option string :=
  Row.expires_at <$> rows conn !! key.

Definition set_last_check (v : string) (r : Row.t) : Row.t :=
  Row.mk (Row.id r) (Row.username r) (Row.plan r) (Row.created_at r)
         (Row.expires_at r) (Row.active r) (Some v).

Definition set_active (v : bool) (r : Row.t) : Row.t :=
  Row.mk (Row.id r) (Row.username r) (Row.plan r) (Row.created_at r)
         (Row.expires_at r) v (Row.last_check r).

Definition set_expires_at (v : string) (r : Row.t) : Row.t :=
  Row.mk (Row.id r) (Row.username r) (Row.plan r) (Row.created_at r)
         v (Row.active r) (Row.last_check r).

(** [UPDATE licenses SET <column> = ? WHERE key = ?]: no row matches an
    absent key and the statement changes nothing. *)
Definition sql_update (f : Row.t → Row.t) (conn : table) (key : string) : table :=
  mk_table (alter f key (rows conn)) (autoincrement conn).

(** ** The world and the handler monad *)

Record world : Type := mk_world {
  disk : option table;          (* the database file; [None]: it cannot be opened *)
  clock : nat → Z;              (* successive readings of the system clock (UTC) *)
  ticks : nat;                  (* readings taken so far *)
  entropy : nat → string;       (* successive draws of the system random source *)
  draws : nat
}.

Definition M (A : Type) : Type := world → result A * world.

Definition ret {A} (a : A) : M A := λ w, (Ok a, w).

Definition raise {A} (e : exn) : M A := λ w, (Raise e, w).

Definition bind {A B} (m : M A) (k : A → M B) : M B :=
  λ w, match m w with
       | (Ok a, w') => k a w'
       | (Raise e, w') => (Raise e, w')
       end.

Notation "'do' x <- m ; k" := (bind m (λ x, k))
  (at level 10, x pattern, m at level 100, k at level 200,
   format "'[v' 'do'  x  <-  m ; '/' k ']'").

(** [try: m except Exception as e: h e] *)
Definition try_except {A} (m : M A) (h : exn → M A) : M A :=
  λ w, match m w with
       | (Ok a, w') => (Ok a, w')
       | (Raise e, w') => h e w'
       end.

Definition lift {A} (r : result A) : M A :=
  match r with Ok a => ret a | Raise e => raise e end.

(** [datetime.utcnow()] *)
Definition utcnow : M datetime :=
  λ w, (Ok (naive (clock w (ticks w))),
        mk_world (disk w) (clock w) (S (ticks w)) (entropy w) (draws w)).

(** [secrets.token_bytes], the nonce [pyseto.encode] draws *)
Definition token_bytes : M string :=
  λ w, (Ok (entropy w (draws w)),
        mk_world (disk w) (clock w) (ticks w) (entropy w) (S (draws w))).

(** [sqlite3.connect(DATABASE)]: the connection starts from the committed
    table and keeps its changes to itself until [commit]. *)
Definition sqlite3_connect : M table :=
  λ w, match disk w with
       | Some t => (Ok t, w)
       | None => (Raise (OperationalError "unable to open database file"), w)
       end.

(** [conn.commit()] *)
Definition commit (conn : table) : M unit :=
  λ w, (Ok tt, mk_world (Some conn) (clock w) (ticks w) (entropy w) (draws w)).

(** [c.execute("INSERT ...")]: the statement reads the clock for
    [CURRENT_TIMESTAMP]. *)
Definition execute_insert (conn : table) (key : string) (username plan : option string)
    (expires_at : string) (last_check : option string) : M table :=
  do now <- utcnow;
  lift (sql_insert conn (current_timestamp (wall now)) key username plan expires_at last_check).

(** ** Libraries *)

Class Libs : Type := {
  (** [pyseto.encode(key, payload, footer)], with the nonce it draws *)
  pyseto_encode : string → gmap string string → string → string → string;
  (** [pyseto.decode(key, token, footer).payload], or the exception raised *)
  pyseto_decode : string → string → string → result (gmap string string);
  (** [datetime.fromisoformat] on a [str]; [None]: [ValueError] *)
  datetime_fromisoformat : string → option datetime;
  (** [d.strftime("%Y-%m-%d")] *)
  strftime_Ymd : datetime → string
}.

(** ** Requests and responses *)

Module License.
Record t : Type := mk { username : string; plan : string; days : Z }.
End License.

Module LicenseUpdate.
Record t : Type := mk { key : string; days : option Z; active : option bool }.
End LicenseUpdate.

Module ValidateRequest.
Record t : Type := mk { key : string }.
End ValidateRequest.

Inductive validate_response : Type :=
  | Invalid (error : string)                       (* {"valid": False, "error": ...} *)
  | Valid (username plan : option string) (days_remaining : Z) (expires_at : string).

Module Created.
Record t : Type := mk {
  success : bool; key : string; username : string; plan : string; expires_at : string
}.
End Created.

Inductive update_response : Type :=
  | Success.                                       (* {"success": True} *)

Definition SECRET_KEY : string := "your-32-byte-secret-key-here!".
Definition FOOTER : string := "license-v1".

Definition ERR_INVALID_KEY : string := "Неверный ключ лицензии".
Definition ERR_DEACTIVATED : string := "Лицензия деактивирована администратором".
Definition ERR_EXPIRED : string := "Срок действия лицензии истёк".

(** ** The handlers *)

Section Handlers.
Context `{Libs}.

(** [datetime.fromisoformat(s)]: a [TypeError] on [None], a [ValueError] on
    text that is not an ISO timestamp. *)
Definition fromisoformat (s : option string) : M datetime :=
  match s with
  | None => raise (TypeError "fromisoformat: argument must be str")
  | Some s =>
      match datetime_fromisoformat s with
      | Some d => ret d
      | None => raise (ValueError "Invalid isoformat string")
      end
  end.

Definition generate_paseto_token (username plan : string) (expires_at : datetime) : M string :=
  do now <- utcnow;
  do nonce <- token_bytes;
  ret (pyseto_encode SECRET_KEY
         (<["sub" := username]>
            (<["plan" := plan]>
               (<["exp" := isoformat "T" expires_at]>
                  (<["iat" := isoformat "T" now]> ∅))))
         FOOTER nonce).

Definition verify_paseto_token (token : string) : M (gmap string string) :=
  match pyseto_decode SECRET_KEY token FOOTER with
  | Ok payload => ret payload
  | Raise e => raise (ValueError ("Invalid token: " +:+ exn_str e))
  end.

(** The body of the [try] in [validate_license]. *)
Definition validate_license_try (request : ValidateRequest.t) : M validate_response :=
  let key := ValidateRequest.key request in
  do payload <- verify_paseto_token key;
  let username := payload !! "sub" in
  let plan := payload !! "plan" in
  let expires_str := payload !! "exp" in
  do conn <- sqlite3_connect;
  let result := sql_select_active_expires conn key in
  do (active, expires_at) <-
    match result with
    | None =>
        do expires_at <- fromisoformat expires_str;
        do now <- utcnow;
        do conn <- execute_insert conn key username plan
                     (adapt_datetime expires_at) (Some (adapt_datetime now));
        do _ <- commit conn;
        ret (true, expires_at)
    | Some (active, expires_db) =>
        do expires_at <- fromisoformat (Some expires_db);
        do now <- utcnow;
        let conn := sql_update (set_last_check (adapt_datetime now)) conn key in
        do _ <- commit conn;
        ret (active, expires_at)
    end;
  if negb active then ret (Invalid ERR_DEACTIVATED)
  else
    do now <- utcnow;
    do expired <- lift (gt now expires_at);
    if expired then ret (Invalid ERR_EXPIRED)
    else
      do now <- utcnow;
      do remaining <- lift (sub expires_at now);
      ret (Valid username plan (timedelta_get_days remaining) (strftime_Ymd expires_at)).

Definition validate_license (request : ValidateRequest.t) : M validate_response :=
  try_except (validate_license_try request)
             (λ _, ret (Invalid ERR_INVALID_KEY)).

Definition admin_create_license_try (license : License.t) : M Created.t :=
  do now <- utcnow;
  do delta <- lift (timedelta_days (License.days license));
  do expires_at <- lift (add now delta);
  do key <- generate_paseto_token (License.username license) (License.plan license) expires_at;
  do conn <- sqlite3_connect;
  do conn <- execute_insert conn key (Some (License.username license))
               (Some (License.plan license)) (adapt_datetime expires_at) None;
  do _ <- commit conn;
  ret (Created.mk true key (License.username license) (License.plan license)
         (strftime_Ymd expires_at)).

Definition admin_create_license (license : License.t) : M Created.t :=
  try_except (admin_create_license_try license)
             (λ e, raise (HTTPException 500 (exn_str e))).

Definition admin_update_license (update : LicenseUpdate.t) : M update_response :=
  let key := LicenseUpdate.key update in
  do conn <- sqlite3_connect;
  let conn :=
    match LicenseUpdate.active update with
    | Some a => sql_update (set_active a) conn key
    | None => conn
    end in
  do conn <-
    match LicenseUpdate.days update with
    | Some days =>
        match sql_select_expires conn key with
        | Some expires_db =>
            do current_expires <- fromisoformat (Some expires_db);
            do delta <- lift (timedelta_days days);
            do new_expires <- lift (add current_expires delta);
            ret (sql_update (set_expires_at (adapt_datetime new_expires)) conn key)
        | None => ret conn
        end
    | None => ret conn
    end;
  do _ <- commit conn;
  ret Success.

End Handlers.

(** ** Reference libraries

    An executable realisation of [Libs].  The token codec writes the key,
    the footer, the nonce and the payload members as delimited fields and
    reads them back, refusing a token made under another key or footer; it
    keeps nothing secret and only stands for the interface of the real
    primitive.  The timestamp parser accepts the text [isoformat] writes
    for a naive datetime. *)

Module Reference.

Fixpoint escape (s : string) : string :=
  match s with
  | EmptyString => ""
  | String c s' => String "." (String c (escape s'))
  end.

Definition field (s : string) : string := escape s +:+ "|".

Fixpoint fields (l : list string) : string :=
  match l with
  | [] => ""
  | s :: l' => field s +:+ fields l'
  end.

Fixpoint split_fields (s : string) (cur : string) : option (list string) :=
  match s with
  | EmptyString => match cur with EmptyString => Some [] | _ => None end
  | String "." (String c s') => split_fields s' (cur +:+ String c "")
  | String "|" s' => cons cur <$> split_fields s' ""
  | _ => None
  end.

Fixpoint flatten (l : list (string * string)) : list string :=
  match l with
  | [] => []
  | (k, v) :: l' => k :: v :: flatten l'
  end.

Fixpoint unflatten (l : list string) : option (list (string * string)) :=
  match l with
  | [] => Some []
  | k :: v :: l' => cons (k, v) <$> unflatten l'
  | _ => None
  end.

Fixpoint strip_prefix (p s : string) : option string :=
  match p, s with
  | EmptyString, _ => Some s
  | String a p', String b s' => if Ascii.eqb a b then strip_prefix p' s' else None
  | _, _ => None
  end.

Definition HEADER : string := "v4.local.".

Definition encode (key : string) (payload : gmap string string) (footer nonce : string) : string :=
  HEADER +:+ fields (key :: footer :: nonce :: flatten (map_to_list payload)).

Definition decode (key token footer : string) : result (gmap string string) :=
  match strip_prefix HEADER token with
  | None => Raise (ValueError "Invalid token")
  | Some body =>
      match split_fields body "" with
      | Some (k :: f :: _ :: members) =>
          if bool_decide (k = key) then
            if bool_decide (f = footer) then
              match unflatten members with
              | Some l => Ok (list_to_map l)
              | None => Raise (ValueError "Invalid payload")
              end
            else Raise (ValueError "Invalid footer")
          else Raise (ValueError "Failed to decrypt")
      | _ => Raise (ValueError "Invalid token")
      end
  end.

Definition digit_value (c : ascii) : option Z :=
  let n := Z.of_N (N_of_ascii c) in
  if (48 <=? n) && (n <=? 57) then Some (n - 48) else None.

Fixpoint read_digits (width : nat) (acc : Z) (s : string) : option (Z * string) :=
  match width with
  | O => Some (acc, s)
  | S w =>
      match s with
      | String c s' =>
          match digit_value c with
          | Some d => read_digits w (10 * acc + d) s'
          | None => None
          end
      | EmptyString => None
      end
  end.

Definition expect (c : ascii) (s : string) : option string :=
  match s with
  | String c' s' => if Ascii.eqb c c' then Some s' else None
  | EmptyString => None
  end.

Definition skip_char (s : string) : option string :=
  match s with
  | String _ s' => Some s'
  | EmptyString => None
  end.

Definition read_fraction (s : string) : option Z :=
  match s with
  | EmptyString => Some 0
  | String "." s' =>
      match read_digits 6 0 s' with
      | Some (us, EmptyString) => Some us
      | _ => None
      end
  | _ => None
  end.

Definition fromisoformat (s : string) : option datetime :=
  '(y, s) ← read_digits 4 0 s;
  s ← expect "-" s;
  '(m, s) ← read_digits 2 0 s;
  s ← expect "-" s;
  '(d, s) ← read_digits 2 0 s;
  s ← skip_char s;
  '(hh, s) ← read_digits 2 0 s;
  s ← expect ":" s;
  '(mm, s) ← read_digits 2 0 s;
  s ← expect ":" s;
  '(ss, s) ← read_digits 2 0 s;
  us ← read_fraction s;
  if (1 <=? y) && (y <=? 9999) && (1 <=? m) && (m <=? 12)
     && (1 <=? d) && (d <=? days_in_month (is_leap y) m)
     && (hh <? 24) && (mm <? 60) && (ss <? 60)
  then Some (naive ((ymd2ord y m d - 1) * US_PER_DAY
                    + ((hh * 60 + mm) * 60 + ss) * US_PER_SECOND + us))
  else None.

Definition strftime (d : datetime) : string := format_date (wall d).

(** [month_day] names a day of a real month, the [n]-th of the year: the
    check run over a whole year in [month_day_table]. *)
Definition month_day_ok (leap : bool) (n : Z) : bool :=
  let '(m, d) := month_day leap n in
  (1 <=? m) && (m <=? 12) && (1 <=? d) && (d <=? days_in_month leap m)
  && (days_before_month leap m + d =? n + 1).

End Reference.

Definition reference_libs : Libs := {|
  pyseto_encode := Reference.encode;
  pyseto_decode := Reference.decode;
  datetime_fromisoformat := Reference.fromisoformat;
  strftime_Ymd := Reference.strftime
|}.

(** ** What the handlers rely on from the libraries *)

Class LibsOk (L : Libs) : Prop := {
  (** a token decodes, under the key and footer it was made with, to the
      payload it was made from *)
  pyseto_decode_encode : ∀ key payload footer nonce,
    pyseto_decode key (pyseto_encode key payload footer nonce) footer = Ok payload;
  (** [fromisoformat] inverts [isoformat] (on naive datetimes) *)
  datetime_fromisoformat_isoformat : ∀ sep t,
    0 <= t < MAX_WALL →
    datetime_fromisoformat (isoformat sep (naive t)) = Some (naive t)
}.

(** ** Vocabulary of the statements *)

(** The world once a handler has committed [t] and read the clock [n] times. *)
Definition after (w : world) (t : table) (n : nat) : world :=
  mk_world (Some t) (clock w) (n + ticks w) (entropy w) (draws w).

(** The [k]-th clock reading a handler started in [w] takes (from 0). *)
Definition reading (w : world) (k : nat) : Z := clock w (k + ticks w)%nat.

(** Two rows that differ at most in [last_check]. *)
Definition same_but_last_check (r r' : Row.t) : Prop :=
  Row.id r' = Row.id r ∧ Row.username r' = Row.username r
  ∧ Row.plan r' = Row.plan r ∧ Row.created_at r' = Row.created_at r
  ∧ Row.expires_at r' = Row.expires_at r ∧ Row.active r' = Row.active r.

(** The payload [generate_paseto_token] signs. *)
Definition claims (username plan : string) (expires_at now : datetime) : gmap string string :=
  <["sub" := username]>
    (<["plan" := plan]>
       (<["exp" := isoformat "T" expires_at]>
          (<["iat" := isoformat "T" now]> ∅))).

(** What can go wrong inside [validate_license]. *)
Inductive internal_failure `{Libs} (request : ValidateRequest.t) (w : world) : Prop :=
  | token_rejected (e : exn) :
      pyseto_decode SECRET_KEY (ValidateRequest.key request) FOOTER = Raise e →
      internal_failure request w
  | store_unavailable :
      disk w = None →
      internal_failure request w
  | stored_expiry_malformed (t : table) (r : Row.t) :
      disk w = Some t →
      rows t !! ValidateRequest.key request = Some r →
      datetime_fromisoformat (Row.expires_at r) = None →
      internal_failure request w
  | raised (e : exn) :
      (validate_license_try request w).1 = Raise e →
      internal_failure request w.

(** ** The listing handler

    [[
    SELECT key, username, plan, created_at, expires_at, active
    FROM licenses ORDER BY created_at DESC
    ]]

    [created_at] is TEXT and compares bytewise.  SQL leaves the order of
    rows with equal [created_at] to the engine, so the sorter is an
    interface like the libraries above: [SorterOk] says what every engine
    guarantees, [reference_sorter] is a merge sort. *)

Module Listed.
Record t : Type := mk {
  key : string; username : string; plan : string;
  created_at : string; expires_at : string; active : bool
}.
End Listed.

(** The dictionary [admin_list_licenses] builds from a fetched row. *)
Definition listed (kr : string * Row.t) : Listed.t :=
  Listed.mk kr.1 (Row.username kr.2) (Row.plan kr.2) (Row.created_at kr.2)
            (Row.expires_at kr.2) (Row.active kr.2).

Definition created_desc (a b : string * Row.t) : Prop :=
  String.le (Row.created_at b.2) (Row.created_at a.2).

Class Sorter : Type := {
  order_by_created_at_desc : list (string * Row.t) → list (string * Row.t)
}.

Class SorterOk (S : Sorter) : Prop := {
  order_by_permutation : ∀ l, order_by_created_at_desc l ≡ₚ l;
  order_by_sorted : ∀ l, Sorted created_desc (order_by_created_at_desc l)
}.

Definition admin_list_licenses `{Sorter} : M (list Listed.t) :=
  do conn <- sqlite3_connect;
  let fetched := order_by_created_at_desc (map_to_list (rows conn)) in
  ret (listed <$> fetched).

Definition reference_sorter : Sorter := {|
  order_by_created_at_desc := merge_sort created_desc
|}.

(** ** The server: requests handled one after the other *)

Inductive request : Type :=
  | PostValidate (r : ValidateRequest.t)           (* POST /api/validate *)
  | PostAdminCreate (l : License.t)                (* POST /admin/create *)
  | GetAdminList                                   (* GET /admin/list *)
  | PostAdminUpdate (u : LicenseUpdate.t).         (* POST /admin/update *)

(** The world a request leaves behind, whether its handler returns or raises. *)
Definition serve `{Libs} `{Sorter} (req : request) (w : world) : world :=
  match req with
  | PostValidate r => (validate_license r w).2
  | PostAdminCreate l => (admin_create_license l w).2
  | GetAdminList => (admin_list_licenses w).2
  | PostAdminUpdate u => (admin_update_license u w).2
  end.

Definition serve_all `{Libs} `{Sorter} (reqs : list request) (w : world) : world :=
  foldl (λ w req, serve req w) w reqs.

(** Every row of [t] is still in [t'], with the columns no statement of the
    source writes after the INSERT. *)
Definition keeps_records (t t' : table) : Prop :=
  ∀ k r, rows t !! k = Some r →
    ∃ r', rows t' !! k = Some r'
          ∧ Row.id r' = Row.id r ∧ Row.username r' = Row.username r
          ∧ Row.plan r' = Row.plan r ∧ Row.created_at r' = Row.created_at r.

Definition keeps_store (w w' : world) : Prop :=
  match disk w, disk w' with
  | Some t, Some t' => keeps_records t t'
  | None, None => True
  | _, _ => False
  end.

(** Every key of the table is a token that verifies. *)
Definition keys_verify `{Libs} (t : table) : Prop :=
  ∀ k r, rows t !! k = Some r →
    ∃ payload, pyseto_decode SECRET_KEY k FOOTER = Ok payload.

(** The ids handed out are distinct and no larger than the sequence. *)
Definition ids_distinct (t : table) : Prop :=
  (∀ k r, rows t !! k = Some r → 1 <= Row.id r <= autoincrement t)
  ∧ (∀ k1 k2 r1 r2, rows t !! k1 = Some r1 → rows t !! k2 = Some r2 →
       Row.id r1 = Row.id r2 → k1 = k2).

(** A token that verifies, or one made under the server's key and footer. *)
Definition minted_or_verified `{Libs} (k : string) : Prop :=
  (∃ payload, pyseto_decode SECRET_KEY k FOOTER = Ok payload)
  ∨ (∃ payload nonce, k = pyseto_encode SECRET_KEY payload FOOTER nonce).

(** What one request can do to the table: nothing, one INSERT under a new
    key, or UPDATEs of one row that keep its first four columns. *)
Inductive table_step `{Libs} (t : table) : table → Prop :=
  | step_none :
      table_step t t
  | step_insert (key : string) (r : Row.t) :
      rows t !! key = None →
      minted_or_verified key →
      Row.id r = autoincrement t + 1 →
      table_step t (mk_table (<[key := r]> (rows t)) (autoincrement t + 1))
  | step_update (key : string) (r r' : Row.t) :
      rows t !! key = Some r →
      Row.id r' = Row.id r →
      Row.username r' = Row.username r →
      Row.plan r' = Row.plan r →
      Row.created_at r' = Row.created_at r →
      table_step t (mk_table (<[key := r']> (rows t)) (autoincrement t)).

Definition world_step `{Libs} (w w' : world) : Prop :=
  match disk w, disk w' with
  | Some t, Some t' => table_step t t'
  | None, None => True
  | _, _ => False
  end.

(** The world [admin_create_license] leaves when it returns: a committed
    table, three clock readings and one draw further. *)
Definition created_world (w : world) (t : table) : world :=
  mk_world (Some t) (clock w) (3 + ticks w) (entropy w) (S (draws w)).

(** ** Concrete requests, run on the reference libraries *)

Module Example.

Definition at_time (s : string) : Z :=
  match Reference.fromisoformat s with
  | Some d => wall d
  | None => 0
  end.

(** A world whose clock stands still at [now]. *)
Definition world_at (now : string) (t : option table) : world :=
  mk_world t (λ _, at_time now) 0 (λ _, "nonce") 0.

Definition token (payload : gmap string string) : string :=
  Reference.encode SECRET_KEY payload FOOTER "nonce".

Definition alice_until (exp : string) : gmap string string :=
  <["sub" := "alice"]> (<["plan" := "Pro"]> (<["exp" := exp]> ∅)).

Definition alice_row (expires_at : string) (active : bool) : Row.t :=
  Row.mk 1 "alice" "Pro" "2024-12-01 00:00:00" expires_at active None.

Definition table_with (key : string) (r : Row.t) : table :=
  mk_table {[ key := r ]} 1.

Definition key2030 : string := token (alice_until "2030-01-01T00:00:00").


(** A parser that also reads ["YYYY-MM-DDTHH:MM:SS+00:00"], as an aware
    datetime at offset zero. *)
Definition fromisoformat_utc (s : string) : option datetime :=
  if bool_decide (String.length s = 25%nat ∧ substring 19 6 s = "+00:00")
  then (λ d, mk_datetime (wall d) (Some 0)) <$> Reference.fromisoformat (substring 0 19 s)
  else Reference.fromisoformat s.

Definition utc_libs : Libs := {|
  pyseto_encode := Reference.encode;
  pyseto_decode := Reference.decode;
  datetime_fromisoformat := fromisoformat_utc;
  strftime_Ymd := Reference.strftime
|}.

Definition key2030_utc : string := token (alice_until "2030-01-01T00:00:00+00:00").

Definition alice30 : License.t := License.mk "alice" "Pro" 30.

(** An empty database on new year's day 2025, the clock standing still. *)
Definition fresh : world := world_at "2025-01-01T00:00:00" (Some init_db).

(** A world whose clock advances by [step] microseconds at each reading. *)
Definition world_from (now : string) (step : Z) (t : option table) : world :=
  mk_world t (λ n, at_time now + Z.of_nat n * step) 0 (λ _, "nonce") 0.

End Example.

(* ===================================================================== *)
(** * Part II: properties *)
(* ===================================================================== *)

(** ** The reference libraries meet [LibsOk] *)

Section ReferenceFacts.
Import Reference.

Lemma append_nil (b : string) : "" +:+ b = b.
Proof. reflexivity. Qed.

Lemma append_cons (x : ascii) (a b : string) : String x a +:+ b = String x (a +:+ b).
Proof. reflexivity. Qed.

Lemma append_assoc (a b c : string) : (a +:+ b) +:+ c = a +:+ (b +:+ c).
Proof.
  induction a as [|x a IH]; [reflexivity |].
  rewrite !append_cons. f_equal. exact IH.
Qed.

Lemma digit_value_digit (n : Z) : digit_value (digit n) = Some (n mod 10).
Proof.
  unfold digit.
  assert (Hm : 0 <= n mod 10 < 10) by (apply Z.mod_pos_bound; lia).
  set (m := n mod 10) in *. clearbody m.
  assert (Hc : m = 0 ∨ m = 1 ∨ m = 2 ∨ m = 3 ∨ m = 4 ∨ m = 5 ∨ m = 6
               ∨ m = 7 ∨ m = 8 ∨ m = 9) by lia.
  repeat (destruct Hc as [-> | Hc]; [reflexivity |]). by subst.
Qed.

Lemma read_digits_fmt_gen (w k : nat) : ∀ (acc n : Z) (rest : string),
  0 <= n < 10 ^ Z.of_nat w →
  read_digits (w + k) acc (fmt w n +:+ rest)
  = read_digits k (acc * 10 ^ Z.of_nat w + n) rest.
Proof.
  revert k. induction w as [|w IH]; intros k acc n rest Hn.
  - simpl in *. f_equal. lia.
  - cbn [fmt]. rewrite append_assoc, append_cons, append_nil.
    replace (S w + k)%nat with (w + S k)%nat by lia.
    rewrite Nat2Z.inj_succ, Z.pow_succ_r in Hn by lia.
    rewrite IH by (split; [apply Z.div_pos; lia | apply Z.div_lt_upper_bound; lia]).
    cbn [read_digits]. rewrite digit_value_digit.
    f_equal. rewrite Nat2Z.inj_succ, Z.pow_succ_r by lia.
    pose proof (Z.div_mod n 10 ltac:(lia)). lia.
Qed.

Lemma read_digits_fmt (w : nat) (n : Z) (rest : string) :
  0 <= n < 10 ^ Z.of_nat w →
  read_digits w 0 (fmt w n +:+ rest) = Some (n, rest).
Proof.
  intros Hn. pose proof (read_digits_fmt_gen w 0 0 n rest Hn) as E.
  rewrite Nat.add_0_r in E. rewrite E. simpl. f_equal.
Qed.

Lemma month_day_table (leap : bool) :
  forallb (month_day_ok leap) (seqZ 0 (if leap then 366 else 365)) = true.
Proof. destruct leap; vm_compute; reflexivity. Qed.

Lemma month_day_spec (leap : bool) (n m d : Z) :
  0 <= n < (if leap then 366 else 365) →
  month_day leap n = (m, d) →
  1 <= m <= 12 ∧ 1 <= d <= days_in_month leap m
  ∧ days_before_month leap m + d = n + 1.
Proof.
  intros Hn E.
  pose proof (month_day_table leap) as Ht.
  rewrite forallb_forall in Ht.
  specialize (Ht n).
  assert (Hin : In n (seqZ 0 (if leap then 366 else 365))).
  { apply list_elem_of_In, elem_of_seqZ. lia. }
  specialize (Ht Hin). unfold month_day_ok in Ht. rewrite E in Ht.
  rewrite !andb_true_iff in Ht. lia.
Qed.

Lemma is_leap_true (y : Z) :
  is_leap y = true ↔ y mod 4 = 0 ∧ (y mod 100 ≠ 0 ∨ y mod 400 = 0).
Proof.
  unfold is_leap.
  rewrite andb_true_iff, orb_true_iff, negb_true_iff, !Z.eqb_eq, Z.eqb_neq. tauto.
Qed.

Lemma is_leap_false (y : Z) :
  is_leap y = false ↔ y mod 4 ≠ 0 ∨ (y mod 100 = 0 ∧ y mod 400 ≠ 0).
Proof.
  unfold is_leap.
  rewrite andb_false_iff, orb_false_iff, negb_false_iff, !Z.eqb_eq, !Z.eqb_neq. tauto.
Qed.

Ltac name_divmod a b q r :=
  let Hq := fresh "Hq" in
  let Hr := fresh "Hr" in
  pose proof (Z.div_mod a b ltac:(lia)) as Hq;
  pose proof (Z.mod_pos_bound a b ltac:(lia)) as Hr;
  set (q := a / b) in *; set (r := a mod b) in *; clearbody q r.

Lemma ord2ymd_spec (n y m d : Z) :
  1 <= n <= MAXORDINAL →
  ord2ymd n = (y, m, d) →
  1 <= y <= 9999 ∧ 1 <= m <= 12 ∧ 1 <= d <= days_in_month (is_leap y) m
  ∧ ymd2ord y m d = n.
Proof.
  unfold ord2ymd, ymd2ord, days_before_year, DI400Y, DI100Y, DI4Y, MAXORDINAL.
  intros Hn.
  name_divmod (n - 1) 146097 q400 r400.
  name_divmod r400 36524 q100 r100.
  name_divmod r100 1461 q4 r4.
  name_divmod r4 365 q1 r1.
  destruct (Z.eqb_spec q1 4) as [E1|E1]; [|destruct (Z.eqb_spec q100 4) as [E100|E100]];
    cbn [orb].
  - intros [= <- <- <-].
    assert (Hl : is_leap (q400 * 400 + 1 + q100 * 100 + q4 * 4 + q1 - 1) = true).
    { apply is_leap_true. Z.div_mod_to_equations. lia. }
    rewrite Hl. change (days_before_month true 12) with 335.
    change (days_in_month true 12) with 31.
    repeat split; try lia. Z.div_mod_to_equations. lia.
  - intros [= <- <- <-].
    assert (Hl : is_leap (q400 * 400 + 1 + q100 * 100 + q4 * 4 + q1 - 1) = true).
    { apply is_leap_true. Z.div_mod_to_equations. lia. }
    rewrite Hl. change (days_before_month true 12) with 335.
    change (days_in_month true 12) with 31.
    repeat split; try lia. Z.div_mod_to_equations. lia.
  - set (leap := (q1 =? 3) && (negb (q4 =? 24) || (q100 =? 3))).
    destruct (month_day leap r1) as [mo da] eqn:Emd.
    intros [= <- <- <-].
    apply month_day_spec in Emd as (Hm & Hd & Hs); [|destruct leap; lia].
    assert (Hl : is_leap (q400 * 400 + 1 + q100 * 100 + q4 * 4 + q1) = leap).
    { subst leap.
      destruct (Z.eqb_spec q1 3) as [E3|E3]; cbn [andb].
      - destruct (Z.eqb_spec q4 24) as [E24|E24]; cbn [negb orb].
        + destruct (Z.eqb_spec q100 3) as [E103|E103].
          * apply is_leap_true. Z.div_mod_to_equations. lia.
          * apply is_leap_false. Z.div_mod_to_equations. lia.
        + apply is_leap_true. Z.div_mod_to_equations. lia.
      - apply is_leap_false. Z.div_mod_to_equations. lia. }
    rewrite Hl. repeat split; try lia. Z.div_mod_to_equations. lia.
Qed.

Lemma append_nil_r (a : string) : a +:+ "" = a.
Proof. induction a as [|x a IH]; [reflexivity |]. rewrite append_cons. by f_equal. Qed.

Lemma read_fmt2 (n : Z) (rest : string) :
  0 <= n < 100 → read_digits 2 0 (fmt 2 n +:+ rest) = Some (n, rest).
Proof. intros. by apply read_digits_fmt. Qed.

Lemma read_fmt4 (n : Z) (rest : string) :
  0 <= n < 10000 → read_digits 4 0 (fmt 4 n +:+ rest) = Some (n, rest).
Proof. intros. by apply read_digits_fmt. Qed.

Lemma read_fmt6 (n : Z) (rest : string) :
  0 <= n < 1000000 → read_digits 6 0 (fmt 6 n +:+ rest) = Some (n, rest).
Proof. intros. by apply read_digits_fmt. Qed.

Ltac string_normal :=
  repeat first [rewrite append_assoc | rewrite append_cons | rewrite append_nil].

Ltac read_field :=
  first [rewrite read_fmt4 by lia | rewrite read_fmt2 by lia];
  cbn [mbind option_bind expect skip_char Ascii.eqb Bool.eqb].

Lemma fromisoformat_isoformat (sep : ascii) (t : Z) :
  0 <= t < MAX_WALL →
  fromisoformat (isoformat sep (naive t)) = Some (naive t).
Proof.
  unfold MAX_WALL, MAXORDINAL, US_PER_DAY. intros Ht.
  unfold isoformat, format_date, format_time, naive, US_PER_DAY, US_PER_SECOND.
  cbn [wall utcoffset format_offset].
  destruct (ord2ymd (t / 86400000000 + 1)) as [[y m] d] eqn:E.
  apply ord2ymd_spec in E as (Hy & Hm & Hd & Hord);
    [|unfold MAXORDINAL; Z.div_mod_to_equations; lia].
  assert (Hdim : days_in_month (is_leap y) m <= 31).
  { unfold days_in_month. destruct (is_leap y); repeat (destruct m as [|[m|m|]|]; try lia). }
  set (s := t mod 86400000000 / 1000000) in *.
  assert (Hs : 0 <= s < 86400) by (subst s; Z.div_mod_to_equations; lia).
  set (us := t mod 1000000) in *.
  assert (Hus : 0 <= us < 1000000) by (subst us; Z.div_mod_to_equations; lia).
  assert (Ht' : (ymd2ord y m d - 1) * 86400000000
                + ((s / 3600 * 60 + s / 60 mod 60) * 60 + s mod 60) * 1000000 + us = t).
  { rewrite Hord. subst s us. Z.div_mod_to_equations. lia. }
  assert (Hh : 0 <= s / 3600 < 24) by (Z.div_mod_to_equations; lia).
  assert (Hmi : 0 <= s / 60 mod 60 < 60) by (Z.div_mod_to_equations; lia).
  assert (Hse : 0 <= s mod 60 < 60) by (Z.div_mod_to_equations; lia).
  clearbody s us.
  unfold fromisoformat.
  assert (Hf : read_fraction ((if us =? 0 then "" else String "." (fmt 6 us)) +:+ "")
               = Some us).
  { destruct (Z.eqb_spec us 0) as [->|Hne]; [reflexivity |].
    string_normal. cbn [read_fraction].
    rewrite read_fmt6 by lia. reflexivity. }
  string_normal.
  do 6 read_field.
  rewrite Hf. cbn [mbind option_bind].
  replace ((1 <=? y) && (y <=? 9999) && (1 <=? m) && (m <=? 12) && (1 <=? d)
           && (d <=? days_in_month (is_leap y) m) && (s / 3600 <? 24)
           && (s / 60 mod 60 <? 60) && (s mod 60 <? 60)) with true.
  - unfold US_PER_DAY, US_PER_SECOND, naive. by rewrite Ht'.
  - symmetry. rewrite !andb_true_iff, !Z.leb_le, !Z.ltb_lt. lia.
Qed.

Lemma split_fields_escape (s rest cur : string) :
  split_fields (escape s +:+ rest) cur = split_fields rest (cur +:+ s).
Proof.
  revert cur. induction s as [|c s IH]; intros cur.
  - by rewrite append_nil, append_nil_r.
  - cbn [escape]. rewrite !append_cons. cbn [split_fields].
    rewrite IH, append_assoc. reflexivity.
Qed.

Lemma split_fields_fields (l : list string) : split_fields (fields l) "" = Some l.
Proof.
  induction l as [|s l IH]; [reflexivity |].
  cbn [fields]. unfold field. rewrite append_assoc, split_fields_escape.
  rewrite append_nil, append_cons, append_nil. cbn [split_fields].
  by rewrite IH.
Qed.

Lemma unflatten_flatten (l : list (string * string)) : unflatten (flatten l) = Some l.
Proof.
  induction l as [|[k v] l IH]; [reflexivity |].
  cbn [flatten unflatten]. by rewrite IH.
Qed.

Lemma strip_prefix_app (p s : string) : strip_prefix p (p +:+ s) = Some s.
Proof.
  induction p as [|c p IH]; [by destruct s |].
  rewrite append_cons. cbn [strip_prefix]. by rewrite Ascii.eqb_refl.
Qed.

Lemma decode_encode (key : string) (payload : gmap string string) (footer nonce : string) :
  decode key (encode key payload footer nonce) footer = Ok payload.
Proof.
  unfold decode, encode.
  rewrite strip_prefix_app, split_fields_fields.
  rewrite !bool_decide_eq_true_2 by done.
  rewrite unflatten_flatten. f_equal. apply list_to_map_to_list.
Qed.

End ReferenceFacts.

Lemma reference_libs_ok : LibsOk reference_libs.
Proof.
  split.
  - exact decode_encode.
  - exact fromisoformat_isoformat.
Qed.

(** ** The handlers *)

Section Claims.
Context `{L : Libs}.

Lemma sql_update_absent (f : Row.t → Row.t) (conn : table) (key : string) :
  rows conn !! key = None → sql_update f conn key = conn.
Proof.
  intros Hk. unfold sql_update. destruct conn as [m n]; cbn in *. f_equal.
  apply map_eq. intros k. rewrite lookup_alter.
  case_decide; subst; [by rewrite Hk | done].
Qed.

Lemma sql_update_present (f : Row.t → Row.t) (conn : table) (key : string) (r : Row.t) :
  rows conn !! key = Some r →
  sql_update f conn key = mk_table (<[key := f r]> (rows conn)) (autoincrement conn).
Proof.
  intros Hk. unfold sql_update. f_equal.
  apply map_eq. intros k. rewrite lookup_alter, lookup_insert.
  case_decide; subst; [by rewrite Hk | done].
Qed.

Ltac unfold_handler :=
  unfold validate_license, validate_license_try, admin_update_license,
    admin_create_license, admin_create_license_try, generate_paseto_token,
    verify_paseto_token, try_except, bind, sqlite3_connect,
    sql_select_active_expires, sql_select_expires, fromisoformat,
    execute_insert, utcnow, token_bytes, commit, lift, ret, raise.


(** C7.  When [pyseto.decode] raises, whatever the exception,
    [validate_license] raises nothing: it answers [valid: False] with the one
    fixed message, and leaves the world as it was. *)
Theorem validate_decode_failure_generic (request : ValidateRequest.t) (w : world) (e : exn) :
  pyseto_decode SECRET_KEY (ValidateRequest.key request) FOOTER = Raise e →
  validate_license request w = (Ok (Invalid ERR_INVALID_KEY), w).
Proof.
  intros Hdec. unfold_handler. rewrite Hdec. reflexivity.
Qed.

(** C6.  An update for a key that has no row, whether it sets [active],
    extends [days] or both, reports success and changes nothing: neither the
    table nor any other part of the world. *)
Theorem admin_update_absent_key (update : LicenseUpdate.t) (w : world) (t : table) :
  disk w = Some t →
  rows t !! LicenseUpdate.key update = None →
  admin_update_license update w = (Ok Success, w).
Proof.
  intros Hdisk Hrow.
  unfold_handler. rewrite Hdisk.
  set (conn := match LicenseUpdate.active update with Some a => _ | None => t end).
  assert (Hc : conn = t).
  { subst conn. destruct (LicenseUpdate.active update); [|done].
    by apply sql_update_absent. }
  clearbody conn. subst conn. rewrite Hrow. cbn.
  destruct (LicenseUpdate.days update); cbn; destruct w; cbn in *; by subst.
Qed.



(** C9.  When the requested key has a row, [validate_license] leaves the
    table with a row for that key that differs from the old one at most in
    [last_check], with every other row as it was and with no row added. *)
Theorem validate_touches_only_last_check (request : ValidateRequest.t) (w : world)
    (t : table) (r : Row.t) :
  disk w = Some t →
  rows t !! ValidateRequest.key request = Some r →
  ∃ t' r',
    disk (validate_license request w).2 = Some t'
    ∧ rows t' !! ValidateRequest.key request = Some r'
    ∧ same_but_last_check r r'
    ∧ (∀ k, k ≠ ValidateRequest.key request → rows t' !! k = rows t !! k)
    ∧ autoincrement t' = autoincrement t.
Proof.
  intros Hdisk Hrow.
  assert (Hsame : ∃ t' r' : _, Some t = Some t' ∧
            rows t' !! ValidateRequest.key request = Some r'
            ∧ same_but_last_check r r'
            ∧ (∀ k, k ≠ ValidateRequest.key request → rows t' !! k = rows t !! k)
            ∧ autoincrement t' = autoincrement t).
  { exists t, r. by repeat split. }
  unfold_handler.
  destruct (pyseto_decode _ _ _) as [payload|e]; cbn; [|by rewrite Hdisk].
  rewrite Hdisk, Hrow. cbn.
  destruct (datetime_fromisoformat (Row.expires_at r)) as [d|]; cbn; [|by rewrite Hdisk].
  set (t1 := sql_update _ t _).
  assert (Ht1 : ∃ t' r' : _, Some t1 = Some t' ∧
            rows t' !! ValidateRequest.key request = Some r'
            ∧ same_but_last_check r r'
            ∧ (∀ k, k ≠ ValidateRequest.key request → rows t' !! k = rows t !! k)
            ∧ autoincrement t' = autoincrement t).
  { subst t1. erewrite sql_update_present by done.
    eexists _, _. split; [reflexivity |]. cbn.
    split; [apply lookup_insert_eq |].
    split; [by repeat split |].
    split; [|done]. intros k Hk. by apply lookup_insert_ne. }
  clearbody t1.
  destruct (Row.active r); cbn; [|done].
  destruct d as [wd [off|]]; cbn; [done |].
  destruct (wd <? _); cbn; done.
Qed.

(** C10.  Any failure inside [validate_license] - a token that does not
    verify, a database that cannot be opened, a stored expiry that cannot be
    read, or any other exception of the body - gives the same answer:
    [valid: False] with the generic invalid-key message. *)
Theorem validate_internal_failure_generic (request : ValidateRequest.t) (w : world) :
  internal_failure request w →
  (validate_license request w).1 = Ok (Invalid ERR_INVALID_KEY).
Proof.
  intros [e Hdec | Hdisk | t r Hdisk Hrow Hexp | e Hraise].
  - unfold_handler. by rewrite Hdec.
  - unfold_handler. destruct (pyseto_decode _ _ _); cbn; [|done]. by rewrite Hdisk.
  - unfold_handler. destruct (pyseto_decode _ _ _); cbn; [|done].
    rewrite Hdisk, Hrow. cbn. by rewrite Hexp.
  - unfold validate_license, try_except.
    destruct (validate_license_try request w) as [[resp|e'] w']; [done | reflexivity].
Qed.

(** C8.  When the key already has a row, inserting another row under it
    fails on the UNIQUE constraint; in [admin_create_license], when the
    freshly made token is such a key, the failure reaches the caller as an
    [HTTPException] with status 500, and the table is unchanged. *)
Theorem duplicate_key_is_an_error (license : License.t) (w : world) (t : table)
    (r : Row.t) (delta : Z) (expires_at : datetime) (key : string) :
  disk w = Some t →
  timedelta_days (License.days license) = Ok delta →
  add (naive (reading w 0)) delta = Ok expires_at →
  key = pyseto_encode SECRET_KEY
          (claims (License.username license) (License.plan license) expires_at
                  (naive (reading w 1)))
          FOOTER (entropy w (draws w)) →
  rows t !! key = Some r →
  (∀ created u p e lc,
     sql_insert t created key (Some u) (Some p) e lc
     = Raise (IntegrityError "UNIQUE constraint failed: licenses.key"))
  ∧ (admin_create_license license w).1
    = Raise (HTTPException 500 "UNIQUE constraint failed: licenses.key")
  ∧ disk (admin_create_license license w).2 = Some t.
Proof.
  intros Hdisk Hdelta Hadd Hkey Hrow.
  split.
  - intros. unfold sql_insert. by rewrite Hrow.
  - subst key. unfold reading, claims in *. cbn in Hadd, Hrow.
    unfold_handler. cbn. rewrite Hdelta, Hadd. cbn. rewrite Hdisk. cbn.
    unfold sql_insert. rewrite Hrow. cbn. done.
Qed.

Lemma admin_update_extend_step (key : string) (d : Z) (a : option bool)
    (w : world) (t : table) (r : Row.t) (T : Z) :
  disk w = Some t →
  rows t !! key = Some r →
  datetime_fromisoformat (Row.expires_at r) = Some (naive T) →
  Z.abs d <= MAX_DELTA_DAYS →
  0 <= T + d * US_PER_DAY < MAX_WALL →
  admin_update_license (LicenseUpdate.mk key (Some d) a) w
  = (Ok Success,
     after w (mk_table
                (<[key := set_expires_at (adapt_datetime (naive (T + d * US_PER_DAY)))
                            match a with Some v => set_active v r | None => r end]>
                   (rows t))
                (autoincrement t)) 0).
Proof.
  intros Hdisk Hrow Hexp Hd HT.
  unfold after. unfold_handler. cbn [LicenseUpdate.key LicenseUpdate.days LicenseUpdate.active].
  rewrite Hdisk.
  set (r0 := match a with Some v => set_active v r | None => r end).
  set (conn := match a with Some v => _ | None => t end).
  assert (Hconn : conn = mk_table (<[key := r0]> (rows t)) (autoincrement t)).
  { subst conn r0. destruct a as [v|]; [by apply sql_update_present |].
    destruct t as [m n]. cbn in *. f_equal. symmetry. by apply insert_id. }
  assert (Hr0 : Row.expires_at r0 = Row.expires_at r) by (subst r0; by destruct a).
  clearbody conn r0. subst conn. cbn [rows].
  rewrite lookup_insert_eq. cbn. rewrite Hr0, Hexp.
  unfold timedelta_days. rewrite (proj2 (Z.leb_le _ _) Hd). cbn.
  unfold add. cbn [wall naive utcoffset].
  rewrite (proj2 (Z.leb_le _ _) (proj1 HT)), (proj2 (Z.ltb_lt _ _) (proj2 HT)). cbn.
  erewrite sql_update_present by (cbn; apply lookup_insert_eq).
  cbn [rows autoincrement]. by rewrite insert_insert_eq.
Qed.

End Claims.

Section ClaimsLibsOk.
Context `{L : Libs} {HL : LibsOk L}.


(** C4.  An update with [days = d] on a row whose stored expiry is [T]
    stores [T + d] days, and a second such update stores [T + 2 d] days:
    the extension adds to the stored expiry and does not restart from the
    clock.  With [d = 30], two updates give [T + 60] days. *)
Theorem admin_update_extends_additively (key : string) (d : Z) (a : option bool)
    (w : world) (t : table) (r : Row.t) (T : Z) :
  disk w = Some t →
  rows t !! key = Some r →
  datetime_fromisoformat (Row.expires_at r) = Some (naive T) →
  Z.abs d <= MAX_DELTA_DAYS →
  0 <= T + d * US_PER_DAY < MAX_WALL →
  0 <= T + 2 * d * US_PER_DAY < MAX_WALL →
  let update := LicenseUpdate.mk key (Some d) a in
  let r0 := match a with Some v => set_active v r | None => r end in
  let extended n :=
    mk_table
      (<[key := set_expires_at (adapt_datetime (naive (T + n * d * US_PER_DAY))) r0]> (rows t))
      (autoincrement t) in
  admin_update_license update w = (Ok Success, after w (extended 1) 0)
  ∧ admin_update_license update (after w (extended 1) 0)
    = (Ok Success, after w (extended 2) 0).
Proof.
  intros Hdisk Hrow Hexp Hd HT1 HT2 update r0 extended. subst update extended. cbn beta.
  rewrite Z.mul_1_l. split.
  - by apply admin_update_extend_step.
  - erewrite (admin_update_extend_step key d a (after w _ 0) _ _ (T + d * US_PER_DAY));
      [| reflexivity | cbn; apply lookup_insert_eq
       | cbn; apply datetime_fromisoformat_isoformat, HT1
       | done
       | by replace (T + d * US_PER_DAY + d * US_PER_DAY) with (T + 2 * d * US_PER_DAY) by lia].
    unfold after. cbn. rewrite insert_insert_eq.
    replace (T + d * US_PER_DAY + d * US_PER_DAY) with (T + 2 * d * US_PER_DAY) by lia.
    subst r0. by destruct a.
Qed.

End ClaimsLibsOk.

(** ** Beyond the claims: what a run of each handler leaves *)

Ltac unfold_handler :=
  unfold validate_license, validate_license_try, admin_update_license,
    admin_create_license, admin_create_license_try, admin_list_licenses,
    generate_paseto_token, verify_paseto_token, try_except, bind, sqlite3_connect,
    sql_select_active_expires, sql_select_expires, fromisoformat,
    execute_insert, utcnow, token_bytes, commit, lift, ret, raise.

Section Runs.
Context `{L : Libs}.

Lemma timedelta_days_ok (n : Z) :
  Z.abs n <= MAX_DELTA_DAYS → timedelta_days n = Ok (n * US_PER_DAY).
Proof. intros Hn. unfold timedelta_days. by rewrite (proj2 (Z.leb_le _ _) Hn). Qed.

Lemma add_naive_ok (t delta : Z) :
  0 <= t + delta < MAX_WALL → add (naive t) delta = Ok (naive (t + delta)).
Proof.
  intros [H0 H1]. unfold add, naive. cbn [wall utcoffset].
  by rewrite (proj2 (Z.leb_le _ _) H0), (proj2 (Z.ltb_lt _ _) H1).
Qed.

Lemma after_0 (w : world) (t : table) : disk w = Some t → after w t 0 = w.
Proof. intros Hd. destruct w. cbn in *. by subst. Qed.

Lemma admin_create_run (license : License.t) (w : world) (t : table) :
  let days := License.days license in
  let T := reading w 0 + days * US_PER_DAY in
  let key := pyseto_encode SECRET_KEY
               (claims (License.username license) (License.plan license)
                       (naive T) (naive (reading w 1)))
               FOOTER (entropy w (draws w)) in
  let r := Row.mk (autoincrement t + 1) (License.username license) (License.plan license)
                  (current_timestamp (reading w 2)) (adapt_datetime (naive T)) true None in
  disk w = Some t →
  Z.abs days <= MAX_DELTA_DAYS →
  0 <= T < MAX_WALL →
  rows t !! key = None →
  admin_create_license license w
  = (Ok (Created.mk true key (License.username license) (License.plan license)
           (strftime_Ymd (naive T))),
     created_world w (mk_table (<[key := r]> (rows t)) (autoincrement t + 1))).
Proof.
  intros days T key r Hdisk Hdays HT Hrow.
  subst days T key r. unfold reading, claims, created_world in *. cbn in Hrow.
  unfold_handler. cbn.
  rewrite timedelta_days_ok by done. cbn.
  rewrite add_naive_ok by done. cbn. rewrite Hdisk. cbn.
  unfold sql_insert. rewrite Hrow. reflexivity.
Qed.

(** The first use of a token, whatever kind of datetime its [exp] reads as. *)
Lemma validate_first_use_run (request : ValidateRequest.t) (w : world)
    (payload : gmap string string) (t : table) (u p s : string) (d : datetime) :
  let key := ValidateRequest.key request in
  let r := Row.mk (autoincrement t + 1) u p (current_timestamp (reading w 1))
                  (adapt_datetime d) true
                  (Some (adapt_datetime (naive (reading w 0)))) in
  let t' := mk_table (<[key := r]> (rows t)) (autoincrement t + 1) in
  pyseto_decode SECRET_KEY key FOOTER = Ok payload →
  disk w = Some t →
  rows t !! key = None →
  payload !! "sub" = Some u →
  payload !! "plan" = Some p →
  payload !! "exp" = Some s →
  datetime_fromisoformat s = Some d →
  validate_license request w =
  match utcoffset d with
  | Some _ => (Ok (Invalid ERR_INVALID_KEY), after w t' 3)
  | None =>
      if wall d <? reading w 2
      then (Ok (Invalid ERR_EXPIRED), after w t' 3)
      else (Ok (Valid (Some u) (Some p) (timedelta_get_days (wall d - reading w 3))
                  (strftime_Ymd d)),
            after w t' 4)
  end.
Proof.
  intros key r t' Hdec Hdisk Hrow Hsub Hplan Hexp Hiso. subst key r t'.
  unfold reading, after. unfold_handler.
  rewrite Hdec, Hdisk, Hrow. cbn. rewrite Hexp, Hiso, Hsub, Hplan. cbn.
  unfold sql_insert. rewrite Hrow. cbn.
  destruct d as [wd [off|]]; cbn; [reflexivity |].
  destruct (wd <? clock w (S (S (ticks w)))); reflexivity.
Qed.

(** A later use: the row is there and its expiry reads as [d]. *)
Lemma validate_found_run (request : ValidateRequest.t) (w : world)
    (payload : gmap string string) (t : table) (r : Row.t) (d : datetime) :
  let key := ValidateRequest.key request in
  let t' := mk_table
              (<[key := set_last_check (adapt_datetime (naive (reading w 0))) r]> (rows t))
              (autoincrement t) in
  pyseto_decode SECRET_KEY key FOOTER = Ok payload →
  disk w = Some t →
  rows t !! key = Some r →
  datetime_fromisoformat (Row.expires_at r) = Some d →
  validate_license request w =
  if negb (Row.active r) then (Ok (Invalid ERR_DEACTIVATED), after w t' 1)
  else
    match utcoffset d with
    | Some _ => (Ok (Invalid ERR_INVALID_KEY), after w t' 2)
    | None =>
        if wall d <? reading w 1
        then (Ok (Invalid ERR_EXPIRED), after w t' 2)
        else (Ok (Valid (payload !! "sub") (payload !! "plan")
                    (timedelta_get_days (wall d - reading w 2)) (strftime_Ymd d)),
              after w t' 3)
    end.
Proof.
  intros key t' Hdec Hdisk Hrow Hiso. subst key t'.
  unfold reading, after. unfold_handler.
  rewrite Hdec, Hdisk, Hrow. cbn. rewrite Hiso. cbn.
  erewrite sql_update_present by done.
  destruct (Row.active r); cbn; [|reflexivity].
  destruct d as [wd [off|]]; cbn; [reflexivity |].
  destruct (wd <? clock w (S (ticks w))); reflexivity.
Qed.

(** An update that only sets the flag. *)
Lemma admin_update_flag_run (key : string) (a : option bool) (w : world) (t : table)
    (r : Row.t) :
  disk w = Some t →
  rows t !! key = Some r →
  admin_update_license (LicenseUpdate.mk key None a) w
  = (Ok Success,
     after w (mk_table (<[key := match a with Some v => set_active v r | None => r end]>
                          (rows t))
                       (autoincrement t)) 0).
Proof.
  intros Hdisk Hrow. unfold after. unfold_handler. cbn. rewrite Hdisk.
  destruct a as [v|]; cbn.
  - by erewrite sql_update_present.
  - destruct t as [m n]. cbn in *. by rewrite insert_id.
Qed.

(** An update that extends a row that is there and whose expiry reads as [d]. *)
Lemma admin_update_run (key : string) (days : Z) (a : option bool) (w : world)
    (t : table) (r : Row.t) (d : datetime) :
  let r0 := match a with Some v => set_active v r | None => r end in
  disk w = Some t →
  rows t !! key = Some r →
  datetime_fromisoformat (Row.expires_at r) = Some d →
  admin_update_license (LicenseUpdate.mk key (Some days) a) w =
  match timedelta_days days with
  | Raise e => (Raise e, w)
  | Ok delta =>
      match add d delta with
      | Raise e => (Raise e, w)
      | Ok d' =>
          (Ok Success,
           after w (mk_table (<[key := set_expires_at (adapt_datetime d') r0]> (rows t))
                             (autoincrement t)) 0)
      end
  end.
Proof.
  intros r0 Hdisk Hrow Hiso.
  unfold after. unfold_handler.
  cbn [LicenseUpdate.key LicenseUpdate.days LicenseUpdate.active]. rewrite Hdisk.
  set (conn := match a with Some v => _ | None => t end).
  assert (Hconn : conn = mk_table (<[key := r0]> (rows t)) (autoincrement t)).
  { subst conn r0. destruct a as [v|]; [by apply sql_update_present |].
    destruct t as [m n]. cbn in *. f_equal. symmetry. by apply insert_id. }
  assert (Hr0 : Row.expires_at r0 = Row.expires_at r) by (subst r0; by destruct a).
  clearbody conn r0. subst conn. cbn [rows].
  rewrite lookup_insert_eq. cbn. rewrite Hr0, Hiso. cbn.
  destruct (timedelta_days days) as [delta|e]; cbn; [|reflexivity].
  destruct (add d delta) as [d'|e]; cbn; [|reflexivity].
  erewrite sql_update_present by (cbn; apply lookup_insert_eq).
  cbn [rows autoincrement]. by rewrite insert_insert_eq.
Qed.

Lemma admin_update_absent_run (update : LicenseUpdate.t) (w : world) (t : table) :
  disk w = Some t →
  rows t !! LicenseUpdate.key update = None →
  admin_update_license update w = (Ok Success, w).
Proof.
  intros Hdisk Hrow. unfold_handler. rewrite Hdisk.
  set (conn := match LicenseUpdate.active update with Some a => _ | None => t end).
  assert (Hc : conn = t).
  { subst conn. destruct (LicenseUpdate.active update); [|done].
    by apply sql_update_absent. }
  clearbody conn. subst conn. rewrite Hrow. cbn.
  destruct (LicenseUpdate.days update); cbn; destruct w; cbn in *; by subst.
Qed.

End Runs.

(** ** Beyond the claims: creation, refusals, updates *)

Section Extras.
Context `{L : Libs}.

(** X1.  With the database open, [days] within range and a token that is
    not yet a key, [admin_create_license] returns the token it made and
    commits one new row under it - username and plan as given, expiry at
    the first clock reading plus [days] days, active, never checked - and
    leaves every other row as it was. *)
Theorem admin_create_registers (license : License.t) (w : world) (t : table) :
  let days := License.days license in
  let T := reading w 0 + days * US_PER_DAY in
  let key := pyseto_encode SECRET_KEY
               (claims (License.username license) (License.plan license)
                       (naive T) (naive (reading w 1)))
               FOOTER (entropy w (draws w)) in
  disk w = Some t →
  Z.abs days <= MAX_DELTA_DAYS →
  0 <= T < MAX_WALL →
  rows t !! key = None →
  ∃ created t',
    (admin_create_license license w).1 = Ok created
    ∧ Created.key created = key
    ∧ Created.success created = true
    ∧ disk (admin_create_license license w).2 = Some t'
    ∧ rows t' !! key
      = Some (Row.mk (autoincrement t + 1) (License.username license)
                     (License.plan license) (current_timestamp (reading w 2))
                     (adapt_datetime (naive T)) true None)
    ∧ ∀ k, k ≠ key → rows t' !! k = rows t !! k.
Proof.
  intros days T key Hdisk Hdays HT Hrow.
  rewrite (admin_create_run license w t Hdisk Hdays HT Hrow).
  eexists _, _. cbn. repeat split.
  - apply lookup_insert_eq.
  - intros k Hk. by apply lookup_insert_ne.
Qed.

(** X2.  Whatever makes [admin_create_license] fail, the caller sees an
    [HTTPException] with status 500 whose detail is the text of the cause,
    and the database file is as before. *)
Theorem admin_create_failure_is_500 (license : License.t) (w w' : world) (e : exn) :
  admin_create_license license w = (Raise e, w') →
  (∃ cause, (admin_create_license_try license w).1 = Raise cause
            ∧ e = HTTPException 500 (exn_str cause))
  ∧ disk w' = disk w.
Proof.
  unfold_handler. cbn.
  destruct (timedelta_days _) as [delta|e1]; cbn; [|intros [= <- <-]; eauto].
  destruct (add _ delta) as [expires_at|e2]; cbn; [|intros [= <- <-]; eauto].
  destruct (disk w) as [t|] eqn:Hdisk; cbn; [|intros [= <- <-]; cbn; eauto].
  destruct (rows t !! _) as [r0|]; cbn; [|discriminate].
  intros [= <- <-]. cbn. eauto.
Qed.

(** X3.  [days] is not validated by the handler: a value beyond the range
    of [timedelta], or one that carries the expiry out of the years 1 to
    9999, is refused with status 500 and nothing is stored. *)
Theorem admin_create_days_out_of_range (license : License.t) (w : world) :
  let days := License.days license in
  MAX_DELTA_DAYS < Z.abs days ∨ ¬ (0 <= reading w 0 + days * US_PER_DAY < MAX_WALL) →
  ∃ detail,
    (admin_create_license license w).1 = Raise (HTTPException 500 detail)
    ∧ disk (admin_create_license license w).2 = disk w.
Proof.
  intros days Hout. subst days. unfold reading in Hout. cbn in Hout.
  unfold_handler. cbn. unfold timedelta_days.
  destruct (Z.leb_spec (Z.abs (License.days license)) MAX_DELTA_DAYS) as [Hle|Hgt]; cbn;
    [|eauto].
  unfold add. cbn [wall naive utcoffset].
  destruct (Z.leb_spec 0 (clock w (ticks w) + License.days license * US_PER_DAY));
    destruct (Z.ltb_spec (clock w (ticks w) + License.days license * US_PER_DAY) MAX_WALL);
    cbn; eauto.
  destruct Hout as [Hout|Hout]; [lia | destruct Hout; lia].
Qed.

(** X4.  A token that verifies but lacks [sub], [plan] or [exp], or whose
    [exp] is not a timestamp, is answered on first use with the generic
    invalid-key message, and no row is registered for it. *)
Theorem validate_refuses_incomplete_token (request : ValidateRequest.t) (w : world)
    (payload : gmap string string) (t : table) :
  pyseto_decode SECRET_KEY (ValidateRequest.key request) FOOTER = Ok payload →
  disk w = Some t →
  rows t !! ValidateRequest.key request = None →
  payload !! "sub" = None ∨ payload !! "plan" = None
  ∨ from_option (λ s, datetime_fromisoformat s = None) True (payload !! "exp") →
  (validate_license request w).1 = Ok (Invalid ERR_INVALID_KEY)
  ∧ disk (validate_license request w).2 = Some t.
Proof.
  intros Hdec Hdisk Hrow Hmiss.
  unfold_handler. rewrite Hdec, Hdisk, Hrow. cbn.
  destruct (payload !! "exp") as [s|]; cbn; [|done].
  destruct (datetime_fromisoformat s) as [d|] eqn:Hiso; cbn; [|done].
  destruct (payload !! "sub") as [u|]; cbn; [|done].
  destruct (payload !! "plan") as [p|]; cbn; [|done].
  cbn in Hmiss. destruct Hmiss as [?|[?|?]]; congruence.
Qed.

(** X5.  A token whose [exp] carries a UTC offset is registered on first
    use, and answered with the generic invalid-key message: the naive
    clock cannot be compared with an aware expiry. *)
Theorem validate_offset_expiry (request : ValidateRequest.t) (w : world)
    (payload : gmap string string) (t : table) (u p s : string) (d : datetime) :
  pyseto_decode SECRET_KEY (ValidateRequest.key request) FOOTER = Ok payload →
  disk w = Some t →
  rows t !! ValidateRequest.key request = None →
  payload !! "sub" = Some u →
  payload !! "plan" = Some p →
  payload !! "exp" = Some s →
  datetime_fromisoformat s = Some d →
  is_Some (utcoffset d) →
  (validate_license request w).1 = Ok (Invalid ERR_INVALID_KEY)
  ∧ ∃ t' r,
      disk (validate_license request w).2 = Some t'
      ∧ rows t' !! ValidateRequest.key request = Some r
      ∧ Row.expires_at r = adapt_datetime d
      ∧ Row.active r = true.
Proof.
  intros Hdec Hdisk Hrow Hsub Hplan Hexp Hiso [o Ho].
  rewrite (validate_first_use_run request w payload t u p s d) by done.
  rewrite Ho. cbn. split; [done |].
  eexists _, _. split; [reflexivity |]. cbn. by rewrite lookup_insert_eq.
Qed.

(** X6.  An update changes at most the row of its key, and in that row at
    most [active] (to the value sent) and [expires_at] (only when [days] is
    sent); no row is added or removed. *)
Theorem admin_update_frame (update : LicenseUpdate.t) (w w' : world) (t : table) :
  let key := LicenseUpdate.key update in
  disk w = Some t →
  admin_update_license update w = (Ok Success, w') →
  ∃ t',
    disk w' = Some t'
    ∧ autoincrement t' = autoincrement t
    ∧ (∀ k, k ≠ key → rows t' !! k = rows t !! k)
    ∧ match rows t !! key with
      | None => rows t' !! key = None
      | Some r =>
          ∃ r', rows t' !! key = Some r'
                ∧ Row.id r' = Row.id r ∧ Row.username r' = Row.username r
                ∧ Row.plan r' = Row.plan r ∧ Row.created_at r' = Row.created_at r
                ∧ Row.last_check r' = Row.last_check r
                ∧ Row.active r' = default (Row.active r) (LicenseUpdate.active update)
                ∧ (LicenseUpdate.days update = None → Row.expires_at r' = Row.expires_at r)
      end.
Proof.
  intros key Hdisk. subst key. destruct update as [key days a]. cbn.
  destruct (rows t !! key) as [r|] eqn:Hrow.
  - assert (Hlook : ∀ x : Row.t, ∀ k, k ≠ key →
              (<[key := x]> (rows t) : gmap string Row.t) !! k = rows t !! k)
      by (intros; by apply lookup_insert_ne).
    destruct days as [days|].
    + destruct (datetime_fromisoformat (Row.expires_at r)) as [d|] eqn:Hiso.
      * rewrite (admin_update_run key days a w t r d Hdisk Hrow Hiso).
        destruct (timedelta_days days); [|discriminate].
        destruct (add d _); [|discriminate].
        intros [= <-]. eexists. split; [reflexivity |]. cbn.
        split; [done |]. split; [auto |].
        eexists. split; [apply lookup_insert_eq |]. by destruct a.
      * unfold_handler. cbn. rewrite Hdisk.
        assert (Hsel : ∀ c : table, rows c !! key = Some r ∨
                  (∃ v, rows c !! key = Some (set_active v r)) →
                  Row.expires_at <$> rows c !! key = Some (Row.expires_at r)).
        { intros c [->|[v ->]]; done. }
        rewrite Hsel; [cbn; rewrite Hiso; discriminate |].
        destruct a as [v|]; [right; exists v | by left].
        erewrite sql_update_present by done. cbn. apply lookup_insert_eq.
    + rewrite (admin_update_flag_run key a w t r Hdisk Hrow).
      intros [= <-]. eexists. split; [reflexivity |]. cbn.
      split; [done |]. split; [auto |].
      eexists. split; [apply lookup_insert_eq |]. by destruct a.
  - rewrite (admin_update_absent_run (LicenseUpdate.mk key days a) w t Hdisk Hrow).
    intros [= <-]. exists t. by rewrite Hdisk, Hrow.
Qed.

(** X7.  When [admin_update_license] raises, nothing is committed: the
    world is exactly as before, also when the request set [active] before
    the failing extension. *)
Theorem admin_update_failure_commits_nothing (update : LicenseUpdate.t)
    (w w' : world) (e : exn) :
  admin_update_license update w = (Raise e, w') → w' = w.
Proof.
  unfold_handler.
  destruct (disk w) as [t|]; cbn; [|by intros [= _ <-]].
  destruct (LicenseUpdate.days update) as [days|]; cbn; [|discriminate].
  destruct (Row.expires_at <$> _) as [s|]; cbn; [|discriminate].
  destruct (datetime_fromisoformat s) as [d|]; cbn; [|by intros [= _ <-]].
  destruct (timedelta_days days) as [delta|]; cbn; [|by intros [= _ <-]].
  destruct (add d delta) as [d'|]; cbn; [discriminate | by intros [= _ <-]].
Qed.

(** X8.  An extension that leaves the range of [timedelta] or carries the
    expiry out of the years 1 to 9999 raises [OverflowError]; the store is
    untouched, and a flag sent in the same request is not applied. *)
Theorem admin_update_overflow (key : string) (days : Z) (a : option bool)
    (w : world) (t : table) (r : Row.t) (d : datetime) :
  disk w = Some t →
  rows t !! key = Some r →
  datetime_fromisoformat (Row.expires_at r) = Some d →
  MAX_DELTA_DAYS < Z.abs days ∨ ¬ (0 <= wall d + days * US_PER_DAY < MAX_WALL) →
  ∃ msg,
    admin_update_license (LicenseUpdate.mk key (Some days) a) w
    = (Raise (OverflowError msg), w).
Proof.
  intros Hdisk Hrow Hiso Hout.
  rewrite (admin_update_run key days a w t r d Hdisk Hrow Hiso).
  unfold timedelta_days.
  destruct (Z.leb_spec (Z.abs days) MAX_DELTA_DAYS) as [Hle|Hgt]; [|eauto].
  unfold add.
  destruct (Z.leb_spec 0 (wall d + days * US_PER_DAY));
    destruct (Z.ltb_spec (wall d + days * US_PER_DAY) MAX_WALL); cbn; eauto.
  destruct Hout as [Hout|Hout]; [lia | destruct Hout; lia].
Qed.

(** X9.  After an update that sets [active] to false, validating the token
    is answered with the deactivated message, whatever the clock and the
    expiry. *)
Theorem deactivate_then_validate (request : ValidateRequest.t) (w : world)
    (payload : gmap string string) (t : table) (r : Row.t) (d : datetime) :
  let key := ValidateRequest.key request in
  pyseto_decode SECRET_KEY key FOOTER = Ok payload →
  disk w = Some t →
  rows t !! key = Some r →
  datetime_fromisoformat (Row.expires_at r) = Some d →
  (validate_license request
     (admin_update_license (LicenseUpdate.mk key None (Some false)) w).2).1
  = Ok (Invalid ERR_DEACTIVATED).
Proof.
  intros key Hdec Hdisk Hrow Hiso.
  rewrite (admin_update_flag_run key (Some false) w t r Hdisk Hrow). cbn [snd].
  erewrite (validate_found_run request _ payload _ (set_active false r) d);
    [reflexivity | done | reflexivity | cbn; apply lookup_insert_eq | done].
Qed.

(** X10.  Deactivating an active license and activating it again puts the
    world back exactly as it was. *)
Theorem deactivate_reactivate_restores (key : string) (w : world) (t : table) (r : Row.t) :
  disk w = Some t →
  rows t !! key = Some r →
  Row.active r = true →
  admin_update_license (LicenseUpdate.mk key None (Some true))
    (admin_update_license (LicenseUpdate.mk key None (Some false)) w).2
  = (Ok Success, w).
Proof.
  intros Hdisk Hrow Hact.
  rewrite (admin_update_flag_run key (Some false) w t r Hdisk Hrow). cbn [snd].
  erewrite admin_update_flag_run; [| reflexivity | cbn; apply lookup_insert_eq].
  f_equal. unfold after. cbn. rewrite insert_insert_eq.
  replace (set_active true (set_active false r)) with r
    by (destruct r; cbn in *; by subst).
  rewrite insert_id by done. destruct w, t. cbn in *. by subst.
Qed.

End Extras.

(** ** Beyond the claims: handlers in sequence *)

Section Sequences.
Context `{L : Libs} {HL : LibsOk L}.

Lemma fromisoformat_adapt (T : Z) :
  0 <= T < MAX_WALL → datetime_fromisoformat (adapt_datetime (naive T)) = Some (naive T).
Proof. apply datetime_fromisoformat_isoformat. Qed.

(** X11.  The token returned by a successful [admin_create_license]
    validates straight away against the row just stored: the answer
    carries the username and plan given at creation, and is the expired one
    exactly when the clock of the check has passed creation time plus
    [days] days. *)
Theorem create_then_validate (license : License.t) (w : world) (t : table) :
  let days := License.days license in
  let T := reading w 0 + days * US_PER_DAY in
  let key := pyseto_encode SECRET_KEY
               (claims (License.username license) (License.plan license)
                       (naive T) (naive (reading w 1)))
               FOOTER (entropy w (draws w)) in
  disk w = Some t →
  Z.abs days <= MAX_DELTA_DAYS →
  0 <= T < MAX_WALL →
  rows t !! key = None →
  (validate_license (ValidateRequest.mk key) (admin_create_license license w).2).1
  = if T <? reading w 4
    then Ok (Invalid ERR_EXPIRED)
    else Ok (Valid (Some (License.username license)) (Some (License.plan license))
               (timedelta_get_days (T - reading w 5)) (strftime_Ymd (naive T))).
Proof.
  intros days T key Hdisk Hdays HT Hrow.
  rewrite (admin_create_run license w t Hdisk Hdays HT Hrow). cbn [snd].
  erewrite (validate_found_run (ValidateRequest.mk key) _ _ _ _ (naive T));
    [| apply pyseto_decode_encode | reflexivity | cbn; apply lookup_insert_eq
     | cbn; by apply fromisoformat_adapt].
  cbn. unfold reading, claims.
  rewrite lookup_insert_eq, lookup_insert_ne, lookup_insert_eq by done.
  cbn. by destruct (T <? _).
Qed.

(** X12.  Created with [days] days and validated while the clock has moved
    on by less than a day, a license is answered valid with
    [days_remaining] equal to [days] or [days - 1]. *)
Theorem create_then_validate_days (license : License.t) (w : world) (t : table) :
  let days := License.days license in
  let T := reading w 0 + days * US_PER_DAY in
  let key := pyseto_encode SECRET_KEY
               (claims (License.username license) (License.plan license)
                       (naive T) (naive (reading w 1)))
               FOOTER (entropy w (draws w)) in
  disk w = Some t →
  Z.abs days <= MAX_DELTA_DAYS →
  0 <= T < MAX_WALL →
  rows t !! key = None →
  reading w 4 <= T →
  reading w 0 <= reading w 5 < reading w 0 + US_PER_DAY →
  ∃ n,
    (validate_license (ValidateRequest.mk key) (admin_create_license license w).2).1
    = Ok (Valid (Some (License.username license)) (Some (License.plan license))
            n (strftime_Ymd (naive T)))
    ∧ (n = days ∨ n = days - 1).
Proof.
  intros days T key Hdisk Hdays HT Hrow Hcheck Hday.
  rewrite (admin_create_run license w t Hdisk Hdays HT Hrow). cbn [snd].
  erewrite (validate_found_run (ValidateRequest.mk key) _ _ _ _ (naive T));
    [| apply pyseto_decode_encode | reflexivity | cbn; apply lookup_insert_eq
     | cbn; by apply fromisoformat_adapt].
  cbn. unfold reading, claims in *.
  rewrite lookup_insert_eq, lookup_insert_ne, lookup_insert_eq by done.
  cbn in *. rewrite (proj2 (Z.ltb_ge _ _) Hcheck). cbn.
  eexists. split; [reflexivity |].
  unfold timedelta_get_days. subst T days. unfold US_PER_DAY in *.
  Z.div_mod_to_equations. lia.
Qed.

(** X13.  [days] may be zero or negative: the license is created all the
    same, and any validation whose clock reading is later than the reading
    taken at creation answers that it has expired. *)
Theorem create_nonpositive_days_expired (license : License.t) (w : world) (t : table) :
  let days := License.days license in
  let T := reading w 0 + days * US_PER_DAY in
  let key := pyseto_encode SECRET_KEY
               (claims (License.username license) (License.plan license)
                       (naive T) (naive (reading w 1)))
               FOOTER (entropy w (draws w)) in
  disk w = Some t →
  Z.abs days <= MAX_DELTA_DAYS →
  0 <= T < MAX_WALL →
  rows t !! key = None →
  days <= 0 →
  reading w 0 < reading w 4 →
  (admin_create_license license w).1
  = Ok (Created.mk true key (License.username license) (License.plan license)
          (strftime_Ymd (naive T)))
  ∧ (validate_license (ValidateRequest.mk key) (admin_create_license license w).2).1
    = Ok (Invalid ERR_EXPIRED).
Proof.
  intros days T key Hdisk Hdays HT Hrow Hneg Hlater.
  rewrite (admin_create_run license w t Hdisk Hdays HT Hrow). cbn [fst snd].
  split; [done |].
  erewrite (validate_found_run (ValidateRequest.mk key) _ _ _ _ (naive T));
    [| apply pyseto_decode_encode | reflexivity | cbn; apply lookup_insert_eq
     | cbn; by apply fromisoformat_adapt].
  cbn. unfold reading in *. cbn in *.
  assert (Hlt : T < clock w (S (S (S (S (ticks w)))))).
  { subst T days. unfold US_PER_DAY. lia. }
  by rewrite (proj2 (Z.ltb_lt _ _) Hlt).
Qed.

(** X14.  Extensions add up: an update by [d1] days followed by one by
    [d2] days stores the expiry [d1 + d2] days after the original one, so
    the two can be sent in either order and [d] followed by [-d] gives the
    original expiry back. *)
Theorem admin_update_extensions_add_up (key : string) (d1 d2 : Z) (w : world)
    (t : table) (r : Row.t) (T : Z) :
  disk w = Some t →
  rows t !! key = Some r →
  datetime_fromisoformat (Row.expires_at r) = Some (naive T) →
  Z.abs d1 <= MAX_DELTA_DAYS →
  Z.abs d2 <= MAX_DELTA_DAYS →
  0 <= T + d1 * US_PER_DAY < MAX_WALL →
  0 <= T + (d1 + d2) * US_PER_DAY < MAX_WALL →
  admin_update_license (LicenseUpdate.mk key (Some d2) None)
    (admin_update_license (LicenseUpdate.mk key (Some d1) None) w).2
  = (Ok Success,
     after w (mk_table
                (<[key := set_expires_at
                            (adapt_datetime (naive (T + (d1 + d2) * US_PER_DAY))) r]>
                   (rows t))
                (autoincrement t)) 0).
Proof.
  intros Hdisk Hrow Hiso Hd1 Hd2 HT1 HT2.
  rewrite (admin_update_run key d1 None w t r (naive T) Hdisk Hrow Hiso).
  rewrite timedelta_days_ok, add_naive_ok by done. cbn [snd].
  erewrite (admin_update_run key d2 None _ _ _ (naive (T + d1 * US_PER_DAY)));
    [| reflexivity | cbn; apply lookup_insert_eq | cbn; by apply fromisoformat_adapt].
  rewrite timedelta_days_ok by done.
  replace (T + (d1 + d2) * US_PER_DAY) with (T + d1 * US_PER_DAY + d2 * US_PER_DAY) in * by lia.
  rewrite add_naive_ok by done.
  unfold after. cbn. by rewrite insert_insert_eq.
Qed.

(** X15.  The stored expiry decides, not the one inside the token: after an
    update by [d] days of an active row whose expiry was [T], validation
    answers expired exactly when the clock has passed [T + d] days - an
    extension revives an expired license, a negative one ends a running
    one. *)
Theorem extend_then_validate (request : ValidateRequest.t) (d : Z) (w : world)
    (payload : gmap string string) (t : table) (r : Row.t) (T : Z) :
  let key := ValidateRequest.key request in
  let T' := T + d * US_PER_DAY in
  pyseto_decode SECRET_KEY key FOOTER = Ok payload →
  disk w = Some t →
  rows t !! key = Some r →
  Row.active r = true →
  datetime_fromisoformat (Row.expires_at r) = Some (naive T) →
  Z.abs d <= MAX_DELTA_DAYS →
  0 <= T' < MAX_WALL →
  (validate_license request
     (admin_update_license (LicenseUpdate.mk key (Some d) None) w).2).1
  = if T' <? reading w 1
    then Ok (Invalid ERR_EXPIRED)
    else Ok (Valid (payload !! "sub") (payload !! "plan")
               (timedelta_get_days (T' - reading w 2)) (strftime_Ymd (naive T'))).
Proof.
  intros key T' Hdec Hdisk Hrow Hact Hiso Hd HT.
  rewrite (admin_update_run key d None w t r (naive T) Hdisk Hrow Hiso).
  rewrite timedelta_days_ok, add_naive_ok by done. cbn [snd].
  erewrite (validate_found_run request _ payload _ _ (naive T'));
    [| done | reflexivity | cbn; apply lookup_insert_eq
     | cbn; by apply fromisoformat_adapt].
  cbn. rewrite Hact. cbn. unfold reading. cbn. by destruct (T' <? _).
Qed.

(** X16.  Validating the same token again, after its first use registered
    it, reads the row back: the answer carries the same username, plan and
    expiry date, [days_remaining] does not grow if the clock does not go
    back, and the table gains no second row. *)
Theorem validate_twice (request : ValidateRequest.t) (w : world)
    (payload : gmap string string) (t : table) (u p s : string) (T : Z) :
  let key := ValidateRequest.key request in
  let w1 := (validate_license request w).2 in
  pyseto_decode SECRET_KEY key FOOTER = Ok payload →
  disk w = Some t →
  rows t !! key = None →
  payload !! "sub" = Some u →
  payload !! "plan" = Some p →
  payload !! "exp" = Some s →
  datetime_fromisoformat s = Some (naive T) →
  0 <= T < MAX_WALL →
  (validate_license request w1).1
  = (if T <? reading w1 1
     then Ok (Invalid ERR_EXPIRED)
     else Ok (Valid (Some u) (Some p) (timedelta_get_days (T - reading w1 2))
                (strftime_Ymd (naive T))))
  ∧ (∀ x1 y1 n1 e1 x2 y2 n2 e2,
       (validate_license request w).1 = Ok (Valid x1 y1 n1 e1) →
       (validate_license request w1).1 = Ok (Valid x2 y2 n2 e2) →
       reading w 3 <= reading w1 2 →
       x2 = x1 ∧ y2 = y1 ∧ e2 = e1 ∧ n2 <= n1)
  ∧ (∃ t1 t2, disk w1 = Some t1 ∧ disk (validate_license request w1).2 = Some t2
              ∧ dom (rows t2) = dom (rows t1)).
Proof.
  intros key w1 Hdec Hdisk Hrow Hsub Hplan Hexp Hiso HT. subst w1.
  rewrite (validate_first_use_run request w payload t u p s (naive T)) by done.
  cbn [utcoffset wall naive].
  set (r := Row.mk _ _ _ _ _ _ _). set (t' := mk_table _ _).
  assert (Hfound : ∀ n, validate_license request (after w t' n) =
            let t2 := mk_table
                        (<[key := set_last_check
                                    (adapt_datetime (naive (reading (after w t' n) 0))) r]>
                           (rows t'))
                        (autoincrement t') in
            if T <? reading (after w t' n) 1
            then (Ok (Invalid ERR_EXPIRED), after (after w t' n) t2 2)
            else (Ok (Valid (Some u) (Some p)
                        (timedelta_get_days (T - reading (after w t' n) 2))
                        (strftime_Ymd (naive T))),
                  after (after w t' n) t2 3)).
  { intros n.
    erewrite (validate_found_run request _ payload t' r (naive T));
      [| done | reflexivity | subst t'; cbn; apply lookup_insert_eq
       | subst r; cbn; by apply fromisoformat_adapt].
    subst r. cbn. by rewrite Hsub, Hplan. }
  assert (Hdom : ∀ x : Row.t, dom (<[key := x]> (rows t')) = dom (rows t')).
  { intros x. subst t'. cbn. rewrite !dom_insert_L. set_solver. }
  destruct (T <? reading w 2) eqn:Hfirst; cbn [fst snd]; rewrite Hfound; cbn zeta.
  - destruct (T <? reading (after w t' 3) 1) eqn:Hsecond; cbn [fst snd].
    + split; [done |]. split; [discriminate |].
      eexists _, _. split; [reflexivity |]. split; [reflexivity | apply Hdom].
    + split; [done |]. split; [discriminate |].
      eexists _, _. split; [reflexivity |]. split; [reflexivity | apply Hdom].
  - destruct (T <? reading (after w t' 4) 1) eqn:Hsecond; cbn [fst snd].
    + split; [done |]. split; [discriminate |].
      eexists _, _. split; [reflexivity |]. split; [reflexivity | apply Hdom].
    + split; [done |]. split.
      * intros x1 y1 n1 e1 x2 y2 n2 e2 [= <- <- <- <-] [= <- <- <- <-] Hmono.
        repeat split. unfold timedelta_get_days.
        apply Z.div_le_mono; [unfold US_PER_DAY; lia |].
        unfold reading, after in *. cbn in *. lia.
      * eexists _, _. split; [reflexivity |]. split; [reflexivity | apply Hdom].
Qed.

End Sequences.

(** ** The statements at concrete requests *)

Import Example.
#[local] Existing Instance reference_libs.

Lemma validate_decode_failure_generic_witness :
  validate_license (ValidateRequest.mk "not-a-token")
                   (world_at "2025-01-01T00:00:00" (Some init_db))
  = (Ok (Invalid ERR_INVALID_KEY), world_at "2025-01-01T00:00:00" (Some init_db)).
Proof.
  apply (validate_decode_failure_generic _ _ (ValueError "Invalid token")).
  reflexivity.
Defined.


Lemma admin_update_absent_key_witness :
  admin_update_license (LicenseUpdate.mk key2030 (Some 30) (Some false))
                       (world_at "2025-01-01T00:00:00" (Some init_db))
  = (Ok Success, world_at "2025-01-01T00:00:00" (Some init_db)).
Proof.
  apply (admin_update_absent_key _ _ init_db); reflexivity.
Defined.





Lemma validate_touches_only_last_check_witness :
  let t := table_with key2030 (alice_row "2030-01-01 00:00:00" true) in
  let w := world_at "2025-01-01T00:00:00" (Some t) in
  ∃ t' r',
    disk (validate_license (ValidateRequest.mk key2030) w).2 = Some t'
    ∧ rows t' !! key2030 = Some r'
    ∧ same_but_last_check (alice_row "2030-01-01 00:00:00" true) r'
    ∧ (∀ k, k ≠ key2030 → rows t' !! k = rows t !! k)
    ∧ autoincrement t' = autoincrement t.
Proof.
  apply (validate_touches_only_last_check (ValidateRequest.mk key2030)); reflexivity.
Defined.

Lemma validate_internal_failure_generic_witness :
  (validate_license (ValidateRequest.mk key2030) (world_at "2025-01-01T00:00:00" None)).1
  = Ok (Invalid ERR_INVALID_KEY).
Proof.
  apply validate_internal_failure_generic, store_unavailable. reflexivity.
Defined.

Lemma duplicate_key_is_an_error_witness :
  let w0 := world_at "2025-01-01T00:00:00" (Some init_db) in
  let license := License.mk "alice" "Pro" 30 in
  let w1 := (admin_create_license license w0).2 in
  (admin_create_license license w1).1
  = Raise (HTTPException 500 "UNIQUE constraint failed: licenses.key")
  ∧ disk (admin_create_license license w1).2 = disk w1.
Proof.
  intros w0 license w1.
  destruct (disk w1) as [t|] eqn:Hdisk; [|discriminate Hdisk].
  destruct (rows t !! token (claims "alice" "Pro"
              (naive (at_time "2025-01-31T00:00:00")) (naive (at_time "2025-01-01T00:00:00"))))
    as [r|] eqn:Hrow;
    [|vm_compute in Hdisk; injection Hdisk as <-; vm_compute in Hrow; discriminate Hrow].
  eapply (duplicate_key_is_an_error license w1 t r (30 * US_PER_DAY)
            (naive (at_time "2025-01-31T00:00:00")) _ Hdisk);
    [reflexivity | reflexivity | reflexivity | exact Hrow].
Defined.


Lemma admin_update_extends_additively_witness :
  let t n := table_with key2030 (alice_row n true) in
  let w n := world_at "2025-01-01T00:00:00" (Some (t n)) in
  let update := LicenseUpdate.mk key2030 (Some 30) None in
  admin_update_license update (w "2030-01-01 00:00:00")
  = (Ok Success, w "2030-01-31 00:00:00")
  ∧ admin_update_license update (w "2030-01-31 00:00:00")
    = (Ok Success, w "2030-03-02 00:00:00").
Proof.
  apply (admin_update_extends_additively (HL := reference_libs_ok) key2030 30 None
           (world_at "2025-01-01T00:00:00"
              (Some (table_with key2030 (alice_row "2030-01-01 00:00:00" true))))
           (table_with key2030 (alice_row "2030-01-01 00:00:00" true))
           (alice_row "2030-01-01 00:00:00" true)
           (at_time "2030-01-01T00:00:00"));
    vm_compute; first [reflexivity | done | by split].
Defined.
